(** * Files page (src/pages/Files.tsx): inventory, search, retention, upload

    A shallow embedding of the React component [FilesPage] and of the helper
    [formatFileSize], together with the properties of the file-inventory
    design document that concern them.

    Modelling conventions.

    - JavaScript strings are modelled by [string]; a character stands for
      one code unit in the range U+0000..U+00FF (Latin-1), on which
      [String.prototype.toLowerCase] acts unit by unit.
    - Arrays are lists; [Array.prototype.filter] and [map] are [List.filter]
      and [List.map].
    - An optional field ([is_permanent?: number]) is an [option].
    - Every [async] function of the component contains exactly one [await].
      It is split at that point: [f] is the code run synchronously up to the
      moment the request is issued, and [f_resume] is the code run when the
      request settles.  The outcome of the request is an argument of
      [f_resume].
    - The observable actions (requests, notifications, console output) are
      appended to a log carried by the [World].
    - [apiFetch] (module [@/lib/api]) is not part of the page.  A call is
      logged with its arguments; what it yields is the [Outcome] handed to
      the continuation: [Resolved] with the parsed reply, [Rejected] when it
      throws, on a transport failure or on a status that is not a success. *)

From Stdlib Require Import ZArith List String Ascii Bool Lia Arith.
From Stdlib Require Import DecimalString Decimal.
Import ListNotations.
Open Scope string_scope.

(** ** Strings *)

Module JsString.

(** [toLowerCase] on one Latin-1 code unit: A-Z and the accented capitals
    U+00C0..U+00DE (the multiplication sign U+00D7 excepted) move up by
    32. *)
Definition lower_unit (c : ascii) : ascii :=
  let n := nat_of_ascii c in
  if ((65 <=? n) && (n <=? 90))%nat then ascii_of_nat (n + 32)
  else if ((192 <=? n) && (n <=? 222) && negb (n =? 215))%nat
       then ascii_of_nat (n + 32)
  else c.

Fixpoint toLowerCase (s : string) : string :=
  match s with
  | EmptyString => EmptyString
  | String c s' => String (lower_unit c) (toLowerCase s')
  end.

(** [startsWith s p]: [p] is a prefix of [s]. *)
Fixpoint startsWith (s p : string) {struct p} : bool :=
  match p, s with
  | EmptyString, _ => true
  | String _ _, EmptyString => false
  | String a p', String b s' => Ascii.eqb a b && startsWith s' p'
  end.

(** [s.includes(sub)]: [sub] occurs in [s] at some position. *)
Fixpoint includes (s sub : string) : bool :=
  startsWith s sub ||
  match s with
  | EmptyString => false
  | String _ s' => includes s' sub
  end.

(** The mathematical notion [includes] decides. *)
Definition Substring (sub s : string) : Prop :=
  exists pre post, s = pre ++ sub ++ post.

(** [q] occurs in [s] when letter case is ignored. *)
Definition CaseInsensitiveSubstring (q s : string) : Prop :=
  Substring (toLowerCase q) (toLowerCase s).

Definition endsWith (s suffix : string) : Prop :=
  exists pre, s = pre ++ suffix.

End JsString.
Import JsString.

(** ** Data model *)

Record MediaFile := mkMediaFile {
  id : string;
  filename : string;
  original_name : string;
  mime_type : string;
  category : string;
  file_size : Z;
  platform : option string;
  chat_id : option string;
  processed : bool;
  created_at : string;
  is_permanent : option Z
}.

Record FileStats := mkFileStats {
  totalFiles : Z;
  totalSize : Z;
  byCategory : list (string * (Z * Z))
}.

(** The object spread [{ ...f, is_permanent: v }]. *)
Definition with_is_permanent (f : MediaFile) (v : option Z) : MediaFile :=
  {| id := id f; filename := filename f; original_name := original_name f;
     mime_type := mime_type f; category := category f;
     file_size := file_size f; platform := platform f; chat_id := chat_id f;
     processed := processed f; created_at := created_at f;
     is_permanent := v |}.

(** ** Search (lines 221-224) *)

Definition matches (searchQuery : string) (f : MediaFile) : bool :=
  includes (toLowerCase (original_name f)) (toLowerCase searchQuery)
  || includes (category f) (toLowerCase searchQuery).

Definition filteredFiles (files : list MediaFile) (searchQuery : string)
  : list MediaFile :=
  filter (matches searchQuery) files.

(** ** Size rendering (lines 40-46)

    [formatFileSize] is applied to byte counts, which are integers.  Its
    floating-point steps are modelled by exact integer arithmetic:
    - [Math.floor(Math.log(bytes) / Math.log(k))] is the integer logarithm
      of [bytes] in base [k = 1024 = 2^10];
    - [bytes / Math.pow(k, i)] is the exact quotient (a division by a power
      of two), and [toFixed(2)] rounds it to the nearest hundredth, the
      larger one on a tie;
    - [parseFloat] followed by the conversion to a string drops the
      trailing zeros of the fraction.
    The model agrees with double precision on the integers below 2^53 whose
    logarithm quotient is not within rounding error of an integer; a power
    [2^(10*2^j)] is safe as well, its logarithm being that of 1024 scaled
    by a power of two. *)

Open Scope Z_scope.
Open Scope string_scope.

Definition k : Z := 1024.

Definition sizes : list string := ["Bytes"; "KB"; "MB"; "GB"].

(** [Math.floor(Math.log(bytes) / Math.log(k))] for [bytes >= 1]. *)
Definition floor_log (base bytes : Z) : Z := Z.log2 bytes / Z.log2 base.

(** [(num / den).toFixed(2)], as a number of hundredths. *)
Definition toFixed2 (num den : Z) : Z := (200 * num + den) / (2 * den).

Definition decimal (n : Z) : string :=
  NilZero.string_of_uint (N.to_uint (Z.to_N n)).

(** The string of [parseFloat(x.toFixed(2))], from the hundredths. *)
Definition number_to_string (hundredths : Z) : string :=
  let q := hundredths / 100 in
  let r := hundredths mod 100 in
  if (r =? 0)%Z then decimal q
  else if (r mod 10 =? 0)%Z then decimal q ++ "." ++ decimal (r / 10)
  else decimal q ++ "." ++ decimal (r / 10) ++ decimal (r mod 10).

(** [sizes[i]] converted to a string by [+]: a missing element is
    [undefined]. *)
Definition unit_name (i : Z) : string :=
  match nth_error sizes (Z.to_nat i) with
  | Some u => u
  | None => "undefined"
  end.

Definition formatFileSize (bytes : Z) : string :=
  if (bytes =? 0)%Z then "0 Bytes"
  else if (bytes <? 0)%Z then "NaN undefined" (* Math.log of a negative is NaN *)
  else
    let i := floor_log k bytes in
    number_to_string (toFixed2 bytes (k ^ i)) ++ " " ++ unit_name i.

(** ** Component state and observable actions *)

Record State := mkState {
  files : list MediaFile;
  stats : option FileStats;
  storagePath : string;
  isLoading : bool;
  isUploading : bool;
  selectedCategory : string;
  dragActive : bool;
  searchQuery : string
}.

(** The values passed to [useState] (lines 50-57). *)
Definition initialState : State :=
  {| files := []; stats := None; storagePath := ""; isLoading := false;
     isUploading := false; selectedCategory := "all"; dragActive := false;
     searchQuery := "" |}.

(** A [File] of a [FileList]. *)
Record File := mkFile { file_name : string; file_content : string }.

Inductive Method := GET | POST | PUT | DELETE.

Inductive Body :=
| FormData (parts : list (string * File))  (* entries appended in order *)
| JsonIsPermanent (isPermanent : bool).    (* JSON.stringify({ isPermanent }) *)

Record RequestInit := mkInit {
  method : Method;
  headers : list (string * string);
  body : option Body
}.

Inductive ToastKind := Success | Error | Loading.

Inductive Effect :=
| ApiFetch (url : string) (options : option RequestInit) (* apiFetch(url, options) *)
| Fetch (url : string) (options : RequestInit)           (* window.fetch *)
| Toast (kind : ToastKind) (message : string)
| ToastDismiss
| ConsoleError (message : string)   (* the arguments, space separated *)
| Confirm (message : string)
| PreventDefault
| StopPropagation.

(** A request in flight, with what its continuation has captured. *)
Inductive Task :=
| TFetchPath
| TFetchFiles
| TFetchStats
| TFileUpload (count : nat) (closureCategory : string)
| TDrop
| TProcessKnowledge (id : string)
| TDelete (id : string)
| TTogglePermanent (id : string).

Inductive Outcome (A : Type) :=
| Resolved (a : A)
| Rejected (err : string).
Arguments Resolved {A} a.
Arguments Rejected {A} err.

(** What a settled request hands to its continuation: the parsed reply of
    [apiFetch], or [response.ok] for [window.fetch]. *)
Definition reply (t : Task) : Type :=
  match t with
  | TFetchPath => string
  | TFetchFiles => list MediaFile
  | TFetchStats => FileStats
  | TFileUpload _ _ => bool
  | TDrop => bool
  | TProcessKnowledge _ => unit
  | TDelete _ => unit
  | TTogglePermanent _ => option Z
  end.

Record World := mkWorld {
  state : State;
  log : list Effect;            (* oldest first *)
  pending : list Task;          (* requests not yet settled *)
  user : bool;                  (* useAuth().user is set *)
  token : option string         (* localStorage.getItem('token') *)
}.

Definition Sync : Type := World -> World.

Definition seq (a b : Sync) : Sync := fun w => b (a w).
Notation "a ;; b" := (seq a b) (at level 61, right associativity).

Definition skip : Sync := fun w => w.

Definition modify (f : State -> State) : Sync := fun w =>
  {| state := f (state w); log := log w; pending := pending w;
     user := user w; token := token w |}.

Definition emit (e : Effect) : Sync := fun w =>
  {| state := state w; log := log w ++ [e]; pending := pending w;
     user := user w; token := token w |}.

Definition suspend (t : Task) : Sync := fun w =>
  {| state := state w; log := log w; pending := pending w ++ [t];
     user := user w; token := token w |}.

(** Issue a request and suspend until it settles. *)
Definition await (t : Task) (request : Effect) : Sync :=
  emit request ;; suspend t.

Definition setFiles (update : list MediaFile -> list MediaFile) : Sync :=
  modify (fun s =>
    {| files := update (files s); stats := stats s;
       storagePath := storagePath s; isLoading := isLoading s;
       isUploading := isUploading s; selectedCategory := selectedCategory s;
       dragActive := dragActive s; searchQuery := searchQuery s |}).

Definition setStats (v : FileStats) : Sync :=
  modify (fun s =>
    {| files := files s; stats := Some v;
       storagePath := storagePath s; isLoading := isLoading s;
       isUploading := isUploading s; selectedCategory := selectedCategory s;
       dragActive := dragActive s; searchQuery := searchQuery s |}).

Definition setStoragePath (v : string) : Sync :=
  modify (fun s =>
    {| files := files s; stats := stats s;
       storagePath := v; isLoading := isLoading s;
       isUploading := isUploading s; selectedCategory := selectedCategory s;
       dragActive := dragActive s; searchQuery := searchQuery s |}).

Definition setIsLoading (v : bool) : Sync :=
  modify (fun s =>
    {| files := files s; stats := stats s;
       storagePath := storagePath s; isLoading := v;
       isUploading := isUploading s; selectedCategory := selectedCategory s;
       dragActive := dragActive s; searchQuery := searchQuery s |}).

Definition setIsUploading (v : bool) : Sync :=
  modify (fun s =>
    {| files := files s; stats := stats s;
       storagePath := storagePath s; isLoading := isLoading s;
       isUploading := v; selectedCategory := selectedCategory s;
       dragActive := dragActive s; searchQuery := searchQuery s |}).

Definition setSelectedCategory (v : string) : Sync :=
  modify (fun s =>
    {| files := files s; stats := stats s;
       storagePath := storagePath s; isLoading := isLoading s;
       isUploading := isUploading s; selectedCategory := v;
       dragActive := dragActive s; searchQuery := searchQuery s |}).

Definition setDragActive (v : bool) : Sync :=
  modify (fun s =>
    {| files := files s; stats := stats s;
       storagePath := storagePath s; isLoading := isLoading s;
       isUploading := isUploading s; selectedCategory := selectedCategory s;
       dragActive := v; searchQuery := searchQuery s |}).

Definition setSearchQuery (v : string) : Sync :=
  modify (fun s =>
    {| files := files s; stats := stats s;
       storagePath := storagePath s; isLoading := isLoading s;
       isUploading := isUploading s; selectedCategory := selectedCategory s;
       dragActive := dragActive s; searchQuery := v |}).

(** What the list area shows once loading is over (lines 221, 319). *)
Definition displayed (w : World) : list MediaFile :=
  filteredFiles (files (state w)) (searchQuery (state w)).

(** ** Loading (lines 59-98) *)

Definition fetchPath : Sync :=
  await TFetchPath (ApiFetch "/api/files/path" None).

Definition fetchPath_resume (o : Outcome string) : Sync :=
  match o with
  | Resolved path => setStoragePath path
  | Rejected err => emit (ConsoleError ("Failed to fetch storage path: " ++ err))
  end.

(** [fetchFiles] reads [selectedCategory] from the render that created it;
    that value is the argument. *)
Definition fetchFiles (selectedCategory : string) : Sync :=
  setIsLoading true ;;
  let url := if selectedCategory =? "all"
             then "/api/files"
             else "/api/files?category=" ++ selectedCategory in
  await TFetchFiles (ApiFetch url None).

Definition fetchFiles_resume (o : Outcome (list MediaFile)) : Sync :=
  match o with
  | Resolved data => setFiles (fun _ => data)
  | Rejected err => emit (ConsoleError ("Failed to fetch files: " ++ err))
  end ;;
  setIsLoading false.

Definition fetchStats : Sync :=
  await TFetchStats (ApiFetch "/api/files/stats" None).

Definition fetchStats_resume (o : Outcome FileStats) : Sync :=
  match o with
  | Resolved data => setStats data
  | Rejected err => emit (ConsoleError ("Failed to fetch stats: " ++ err))
  end.

(** The body of [useEffect], run after the first render and after every
    render in which [user] or [selectedCategory] has changed. *)
Definition useEffect : Sync := fun w =>
  if user w
  then (fetchFiles (selectedCategory (state w)) ;; fetchStats ;; fetchPath) w
  else w.

(** [onValueChange={setSelectedCategory}] (line 288): setting the value it
    already has causes no render, hence no effect. *)
Definition selectCategory (name : string) : Sync := fun w =>
  if selectedCategory (state w) =? name then w
  else (setSelectedCategory name ;; useEffect) w.

(** [onChange] of the search box (line 302). *)
Definition search (text : string) : Sync := setSearchQuery text.

(** ** Upload from the picker (lines 100-137) *)

(** The argument of [handleFileUpload]: a DOM event, for which
    [e instanceof Event] holds, or React's change event, whose
    [target.files] is a [FileList] or [null]. *)
Inductive UploadEvent :=
| NativeEvent
| ChangeEvent (target_files : option (list File)).

(** [formData.append('files', file)] for each file, in order. *)
Definition formDataOf (fileList : list File) : Body :=
  FormData (map (fun file => ("files", file)) fileList).

(** The template literal [`Bearer ${token}`]. *)
Definition bearer (token : option string) : string :=
  "Bearer " ++ match token with Some t => t | None => "null" end.

Definition uploadRequest (token : option string) (fileList : list File)
  : Effect :=
  Fetch "/api/files/upload"
        {| method := POST;
           headers := [("Authorization", bearer token)];
           body := Some (formDataOf fileList) |}.

Definition handleFileUpload (e : UploadEvent) : Sync := fun w =>
  let fileList :=
    match e with
    | NativeEvent => None (* drag event *)
    | ChangeEvent target_files => target_files
    end in
  match fileList with
  | None => w
  | Some [] => w
  | Some fileList =>
      (setIsUploading true ;;
       await (TFileUpload (List.length fileList) (selectedCategory (state w)))
             (uploadRequest (token w) fileList)) w
  end.

Definition handleFileUpload_resume (count : nat) (closureCategory : string)
  (o : Outcome bool) : Sync :=
  match o with
  | Resolved true =>
      emit (Toast Success
              ("Uploaded " ++ decimal (Z.of_nat count) ++ " files successfully")) ;;
      fetchFiles closureCategory ;;
      fetchStats
  | Resolved false =>
      emit (Toast Error "Failed to upload files") ;;
      emit (ConsoleError "Error: Upload failed")
  | Rejected err =>
      emit (Toast Error "Failed to upload files") ;;
      emit (ConsoleError err)
  end ;;
  setIsUploading false.

(** ** Knowledge bank (lines 139-150) *)

Definition handleProcessKnowledge (id : string) : Sync :=
  emit (Toast Loading "Processing file for Knowledge Bank...") ;;
  await (TProcessKnowledge id)
        (ApiFetch ("/api/files/" ++ id ++ "/process-knowledge")
                  (Some {| method := POST; headers := []; body := None |})).

Definition handleProcessKnowledge_resume (o : Outcome unit) : Sync :=
  match o with
  | Resolved _ =>
      emit ToastDismiss ;;
      emit (Toast Success "Added to Knowledge Bank")
  | Rejected err =>
      emit ToastDismiss ;;
      emit (Toast Error "Failed to process file") ;;
      emit (ConsoleError err)
  end.

(** ** Deletion (lines 152-162); [confirmed] is the answer to [confirm]. *)

Definition handleDelete (id : string) (confirmed : bool) : Sync :=
  emit (Confirm "Delete this file?") ;;
  if confirmed
  then await (TDelete id)
             (ApiFetch ("/api/files/" ++ id)
                       (Some {| method := DELETE; headers := []; body := None |}))
  else skip.

Definition handleDelete_resume (id' : string) (o : Outcome unit) : Sync :=
  match o with
  | Resolved _ =>
      emit (Toast Success "File deleted") ;;
      setFiles (fun prev => filter (fun f => negb (id f =? id')) prev) ;;
      fetchStats
  | Rejected _ => emit (Toast Error "Failed to delete file")
  end.

(** ** Retention (lines 164-175) *)

(** Truthiness of [res.is_permanent]. *)
Definition truthy (v : option Z) : bool :=
  match v with
  | Some n => negb (n =? 0)%Z
  | None => false
  end.

Definition handleTogglePermanent (id : string) (currentStatus : bool) : Sync :=
  await (TTogglePermanent id)
        (ApiFetch ("/api/files/" ++ id ++ "/permanent")
                  (Some {| method := PUT; headers := [];
                           body := Some (JsonIsPermanent (negb currentStatus)) |})).

Definition handleTogglePermanent_resume (id' : string) (o : Outcome (option Z))
  : Sync :=
  match o with
  | Resolved res_is_permanent =>
      setFiles (fun prev =>
        map (fun f => if id f =? id'
                      then with_is_permanent f res_is_permanent
                      else f) prev) ;;
      emit (Toast Success (if truthy res_is_permanent
                           then "File marked as permanent"
                           else "File unmarked as permanent"))
  | Rejected _ => emit (Toast Error "Failed to update file status")
  end.

(** ** Drag and drop (lines 177-219) *)

Definition handleDrag (type : string) : Sync :=
  emit PreventDefault ;;
  emit StopPropagation ;;
  if (type =? "dragenter") || (type =? "dragover") then setDragActive true
  else if type =? "dragleave" then setDragActive false
  else skip.

(** [dataTransfer_files] is [e.dataTransfer.files]. *)
Definition handleDrop (dataTransfer_files : list File) : Sync := fun w =>
  (emit PreventDefault ;;
   emit StopPropagation ;;
   setDragActive false ;;
   match dataTransfer_files with
   | [] => skip
   | _ :: _ =>
       setIsUploading true ;;
       await TDrop (uploadRequest (token w) dataTransfer_files)
   end) w.

(** [handleDrop] is memoised by [useCallback(..., [])]: it is the function
    of the first render for the life of the component, and the [fetchFiles]
    it calls is the one of that render, in which [selectedCategory] has its
    initial value. *)
Definition handleDrop_resume (o : Outcome bool) : Sync :=
  match o with
  | Resolved true =>
      emit (Toast Success "Files uploaded") ;;
      fetchFiles (selectedCategory initialState) ;;
      fetchStats
  | Resolved false => emit (Toast Error "Upload failed")
  | Rejected _ => emit (Toast Error "Upload failed")
  end ;;
  setIsUploading false.

(** ** Settling a request *)

Definition resume (t : Task) : Outcome (reply t) -> Sync :=
  match t with
  | TFetchPath => fetchPath_resume
  | TFetchFiles => fetchFiles_resume
  | TFetchStats => fetchStats_resume
  | TFileUpload count closureCategory =>
      handleFileUpload_resume count closureCategory
  | TDrop => handleDrop_resume
  | TProcessKnowledge _ => handleProcessKnowledge_resume
  | TDelete id => handleDelete_resume id
  | TTogglePermanent id => handleTogglePermanent_resume id
  end.

(** The remote service: what it answers to each request in flight. *)
Definition Network : Type := forall t : Task, Outcome (reply t).

Definition setPending (l : list Task) : Sync := fun w =>
  {| state := state w; log := log w; pending := l;
     user := user w; token := token w |}.

(** The [i]-th request in flight settles and its continuation runs. *)
Definition settle (i : nat) (net : Network) (w : World) : option World :=
  match nth_error (pending w) i with
  | Some t =>
      Some (resume t (net t)
              (setPending (firstn i (pending w) ++ skipn (S i) (pending w))%list w))
  | None => None
  end.

(** The network actions of a log, and the upload transfers among them. *)
Definition isUploadTransfer (e : Effect) : bool :=
  match e with
  | Fetch url options =>
      (url =? "/api/files/upload") &&
      match method options with POST => true | _ => false end
  | _ => false
  end.

Definition isRequest (e : Effect) : bool :=
  match e with
  | ApiFetch _ _ | Fetch _ _ => true
  | _ => false
  end.

(** The file parts (field name [files]) of a multipart body. *)
Definition fileParts (b : option Body) : list File :=
  match b with
  | Some (FormData parts) =>
      map snd (filter (fun p => fst p =? "files") parts)
  | _ => []
  end.

(** The part of [l'] appended to [l] (logs only grow). *)
Definition since (l l' : list Effect) : list Effect :=
  skipn (List.length l) l'.

(** ** The contract of one upload gesture

    [start] is the gesture's handler, [t] the request it leaves in flight
    and [continue] the code run when that request settles. *)

Definition UploadContract (start : Sync) (t : Task)
  (continue : Outcome bool -> Sync) (fileList : list File) (w : World)
  : Prop :=
  let w1 := start w in
  (* one request, the transfer, carrying one part named files per blob *)
  (exists options parts,
     filter isRequest (since (log w) (log w1))
       = [Fetch "/api/files/upload" options] /\
     method options = POST /\
     body options = Some (FormData parts) /\
     List.length parts = List.length fileList /\
     Forall (fun part => fst part = "files") parts /\
     map snd parts = fileList) /\
  pending w1 = (pending w ++ [t])%list /\
  (* in flight *)
  isUploading (state w1) = true /\
  files (state w1) = files (state w) /\
  (* settled *)
  forall o : Outcome bool,
    let w2 := continue o w1 in
    isUploading (state w2) = false /\
    (o <> Resolved true ->
       files (state w2) = files (state w) /\
       filter isRequest (since (log w1) (log w2)) = [] /\
       pending w2 = pending w1).

(** ** Storage usage card (line 271) *)

Definition storageUsage (stats : option FileStats) : string :=
  match stats with
  | Some s => formatFileSize (totalSize s)
  | None => "..."
  end.

(** ** Sample data *)

Module Sample.

Definition photo : MediaFile :=
  {| id := "f1"; filename := "1700000000-a.png"; original_name := "Holiday.PNG";
     mime_type := "image/png"; category := "images"; file_size := 2097152;
     platform := None; chat_id := None; processed := false;
     created_at := "2024-01-01T00:00:00Z"; is_permanent := None |}.

Definition report : MediaFile :=
  {| id := "f2"; filename := "1700000001-r.pdf"; original_name := "report.pdf";
     mime_type := "application/pdf"; category := "documents";
     file_size := 1048576; platform := Some "web"; chat_id := None;
     processed := true; created_at := "2024-01-02T00:00:00Z";
     is_permanent := Some 1 |}.

(** A record whose category is none of the four known ones. *)
(* The page shows such a record with the fallback icon (line 326). *)
Definition archive : MediaFile :=
  {| id := "f3"; filename := "1700000002-b.zip"; original_name := "backup.zip";
     mime_type := "application/zip"; category := "Other";
     file_size := 1099511627776; platform := None; chat_id := None;
     processed := false; created_at := "2024-01-03T00:00:00Z";
     is_permanent := Some 0 |}.

Definition inventory : list MediaFile := [photo; report; archive].

Definition usage : FileStats :=
  {| totalFiles := 3; totalSize := 3145728;
     byCategory := [("images", (2, 2097152)); ("documents", (1, 1048576))] |}.

Definition blob1 : File := {| file_name := "a.png"; file_content := "PNG" |}.
Definition blob2 : File := {| file_name := "b.txt"; file_content := "text" |}.

Definition world : World :=
  {| state := {| files := inventory; stats := Some usage;
                 storagePath := "/data/media"; isLoading := false;
                 isUploading := false; selectedCategory := "images";
                 dragActive := false; searchQuery := "" |};
     log := []; pending := []; user := true; token := Some "secret" |}.

(** A service that accepts everything and answers the list request with
    one record. *)
Definition network : Network := fun t =>
  match t return Outcome (reply t) with
  | TFetchPath => Resolved "/data/media"
  | TFetchFiles => Resolved [photo]
  | TFetchStats => Resolved usage
  | TFileUpload _ _ => Resolved true
  | TDrop => Resolved true
  | TProcessKnowledge _ => Resolved tt
  | TDelete _ => Resolved tt
  | TTogglePermanent _ => Resolved (Some 1)
  end.

End Sample.

(** ** One card of the grid (lines 319-372) *)

(** [file.is_permanent === 1] (lines 342, 367). *)
Definition permBadge (f : MediaFile) : bool :=
  match is_permanent f with
  | Some n => (n =? 1)%Z
  | None => false
  end.

(** The text of the retention button (line 369). *)
Definition retentionLabel (f : MediaFile) : string :=
  if truthy (is_permanent f) then "Protected (Keep)" else "Auto-delete in 7d".

(** [onClick] of the retention button (line 367). *)
Definition onRetentionClick (f : MediaFile) : Sync :=
  handleTogglePermanent (id f) (permBadge f).

(** [s.split(sep)] for a separator of one code unit. *)
Fixpoint splitOn (sep : ascii) (s : string) : list string :=
  match s with
  | EmptyString => [EmptyString]
  | String c s' =>
      if Ascii.eqb c sep then EmptyString :: splitOn sep s'
      else match splitOn sep s' with
           | head :: tail => String c head :: tail
           | [] => [String c EmptyString]
           end
  end.

(** [file.mime_type.split('/')[1] || 'FILE'] (line 356). *)
Definition mimeBadge (mime_type : string) : string :=
  match nth_error (splitOn "/" mime_type) 1%nat with
  | Some (String c rest) => String c rest
  | _ => "FILE"
  end.

(** ** Gestures: the handlers as the markup wires them (lines 245-367) *)

Inductive Gesture :=
| DragPhase (type : string)                   (* onDragEnter/Leave/Over *)
| Drop (dataTransfer_files : list File)       (* onDrop *)
| Pick (target_files : option (list File))    (* onChange of the input *)
| SelectTab (name : string)                   (* onValueChange *)
| TypeSearch (text : string)                  (* onChange of the search box *)
| ClickKnowledge (f : MediaFile)
| ClickDelete (f : MediaFile) (confirmed : bool)
| ClickRetention (f : MediaFile).

Definition perform (g : Gesture) : Sync :=
  match g with
  | DragPhase type => handleDrag type
  | Drop dataTransfer_files => handleDrop dataTransfer_files
  | Pick target_files => handleFileUpload (ChangeEvent target_files)
  | SelectTab name => selectCategory name
  | TypeSearch text => search text
  | ClickKnowledge f => handleProcessKnowledge (id f)
  | ClickDelete f confirmed => handleDelete (id f) confirmed
  | ClickRetention f => onRetentionClick f
  end.

(** A run of drag events over the drop zone, oldest first. *)
Definition dragAll (types : list string) : Sync := fun w =>
  fold_left (fun w' type => handleDrag type w') types w.

(** Which settled requests write the list of files. *)
Definition writesFiles (t : Task) : bool :=
  match t with
  | TFetchFiles | TDelete _ | TTogglePermanent _ => true
  | _ => false
  end.

(** ** Downloads page (src/pages/Downloads.tsx, lines 43-49) *)

Module Downloads.

Definition sizes : list string := ["B"; "KB"; "MB"; "GB"; "TB"].

Definition unit_name (i : Z) : string :=
  match nth_error sizes (Z.to_nat i) with
  | Some u => u
  | None => "undefined"
  end.

(** Same arithmetic as [formatFileSize]; see the conventions there. *)
Definition formatSize (bytes : Z) : string :=
  if (bytes =? 0)%Z then "0 B"
  else if (bytes <? 0)%Z then "NaN undefined"
  else
    let i := floor_log k bytes in
    number_to_string (toFixed2 bytes (k ^ i)) ++ " " ++ unit_name i.

End Downloads.

(** * Properties *)

(** ** Strings *)

Lemma startsWith_spec (s p : string) :
  startsWith s p = true <-> exists post, s = p ++ post.
Proof.
  revert s; induction p as [|a p IH]; intros s; simpl.
  - split; [intros _; now exists s | reflexivity].
  - destruct s as [|b s].
    + split; [discriminate | intros [post H]; discriminate].
    + rewrite andb_true_iff, Ascii.eqb_eq, IH. split.
      * intros [-> [post ->]]. now exists post.
      * intros [post H]. injection H as -> ->. split; [reflexivity | now exists post].
Qed.

Lemma includes_spec (s sub : string) :
  includes s sub = true <-> Substring sub s.
Proof.
  unfold Substring. induction s as [|c s IH].
  - simpl. rewrite orb_false_r, startsWith_spec. split.
    + intros [post H]. now exists "", post.
    + intros [pre [post H]]. destruct pre; [now exists post | discriminate].
  - change (includes (String c s) sub)
      with (startsWith (String c s) sub || includes s sub).
    rewrite orb_true_iff, startsWith_spec, IH. split.
    + intros [[post H] | [pre [post H]]].
      * now exists "", post.
      * exists (String c pre), post. simpl. now rewrite H.
    + intros [pre [post H]]. destruct pre as [|c' pre].
      * left. now exists post.
      * right. simpl in H. injection H as _ H. now exists pre, post.
Qed.

Lemma string_app_assoc (a b c : string) : (a ++ b) ++ c = a ++ b ++ c.
Proof. induction a as [|x a IH]; simpl; [reflexivity | now rewrite IH]. Qed.

Lemma includes_empty (s : string) : includes s "" = true.
Proof. destruct s; reflexivity. Qed.

Lemma toLowerCase_idempotent_unit (c : ascii) :
  lower_unit (lower_unit c) = lower_unit c.
Proof.
  destruct c as [[] [] [] [] [] [] [] []]; reflexivity.
Qed.

Lemma toLowerCase_idempotent (s : string) :
  toLowerCase (toLowerCase s) = toLowerCase s.
Proof.
  induction s as [|c s IH]; simpl; [reflexivity|].
  now rewrite toLowerCase_idempotent_unit, IH.
Qed.

Example toLowerCase_mixed : toLowerCase "Holiday.PNG" = "holiday.png".
Proof. reflexivity. Qed.

Example includes_inner : includes "documents" "cum" = true.
Proof. reflexivity. Qed.

Example includes_is_case_sensitive : includes "Other" "other" = false.
Proof. reflexivity. Qed.

(** ** Search *)

Lemma matches_spec (q : string) (f : MediaFile) :
  matches q f = true <->
  CaseInsensitiveSubstring q (original_name f) \/
  Substring (toLowerCase q) (category f).
Proof.
  unfold matches, CaseInsensitiveSubstring.
  now rewrite orb_true_iff, !includes_spec.
Qed.

(** The search only narrows the fetched set. *)
Lemma filteredFiles_subset (S : list MediaFile) (q : string) :
  incl (filteredFiles S q) S.
Proof. intros r H. apply filter_In in H. tauto. Qed.

(** What the search keeps: the name is compared with case folded on both
    sides, the category as it is stored. *)
Lemma filteredFiles_In (S : list MediaFile) (q : string) (r : MediaFile) :
  In r (filteredFiles S q) <->
  In r S /\
  (CaseInsensitiveSubstring q (original_name r) \/
   Substring (toLowerCase q) (category r)).
Proof. unfold filteredFiles. now rewrite filter_In, matches_spec. Qed.

(** On records whose category is written in lower case (as the four known
    categories are) the search is case-insensitive on both fields. *)
Lemma filteredFiles_lowercase_categories (S : list MediaFile) (q : string) :
  (forall r, In r S -> toLowerCase (category r) = category r) ->
  forall r,
    In r (filteredFiles S q) <->
    In r S /\
    (CaseInsensitiveSubstring q (original_name r) \/
     CaseInsensitiveSubstring q (category r)).
Proof.
  intros Hlow r. rewrite filteredFiles_In. unfold CaseInsensitiveSubstring.
  split; intros [Hin H]; (split; [exact Hin|]).
  - now rewrite (Hlow r Hin).
  - now rewrite (Hlow r Hin) in H.
Qed.

(** Searching is idempotent and needs no request: it is a function of the
    fetched set. *)
Lemma filteredFiles_idempotent (S : list MediaFile) (q : string) :
  filteredFiles (filteredFiles S q) q = filteredFiles S q.
Proof.
  unfold filteredFiles. induction S as [|r S IH]; simpl; [reflexivity|].
  destruct (matches q r) eqn:E; simpl; [rewrite E, IH|]; auto.
Qed.

Lemma filteredFiles_empty_query (S : list MediaFile) :
  filteredFiles S "" = S.
Proof.
  unfold filteredFiles. induction S as [|r S IH]; simpl; [reflexivity|].
  unfold matches at 1. simpl toLowerCase. rewrite includes_empty. simpl.
  now rewrite IH.
Qed.

Example search_by_name_any_case :
  filteredFiles Sample.inventory "HOLI" = [Sample.photo].
Proof. reflexivity. Qed.

Example search_by_category_upper_case_text :
  filteredFiles Sample.inventory "DOCUMENTS" = [Sample.report].
Proof. reflexivity. Qed.

(** Hence the search is not case-insensitive on the category of every
    record. *)
Lemma search_not_case_insensitive_on_category :
  ~ (forall (S : list MediaFile) (q : string) (r : MediaFile),
       In r (filteredFiles S q) <->
       In r S /\
       (CaseInsensitiveSubstring q (original_name r) \/
        CaseInsensitiveSubstring q (category r))).
Proof.
  intros H.
  assert (Hin : In Sample.archive (filteredFiles [Sample.archive] "OTHER")).
  { apply H. split; [now left|]. right. exists "", "". reflexivity. }
  vm_compute in Hin. exact Hin.
Qed.

(** C1.  The search text "other" occurs, case ignored, in the category
    "Other" of a fetched record, yet the record is not in the filtered set:
    line 223 folds the case of the search text but not of the category,
    whereas line 222 folds both sides for the name. *)
Theorem C1_category_compared_case_sensitively :
  In Sample.archive Sample.inventory /\
  CaseInsensitiveSubstring "other" (category Sample.archive) /\
  ~ In Sample.archive (filteredFiles Sample.inventory "other").
Proof.
  split; [simpl; tauto|]. split.
  - exists "", "". reflexivity.
  - vm_compute. tauto.
Qed.

(** ** Retention *)

Lemma togglePermanent_files (X : string) (v : option Z) (w : World) :
  files (state (handleTogglePermanent_resume X (Resolved v) w)) =
  map (fun f => if id f =? X then with_is_permanent f v else f)
      (files (state w)).
Proof. reflexivity. Qed.

(** The server's value is written even when it is not the one asked for:
    the record f2 is asked to become permanent and the server answers 0. *)
Example toggle_writes_server_value :
  let w1 := handleTogglePermanent "f2" false Sample.world in
  since (log Sample.world) (log w1)
  = [ApiFetch "/api/files/f2/permanent"
       (Some {| method := PUT; headers := [];
                body := Some (JsonIsPermanent true) |})] /\
  map is_permanent
      (files (state (resume (TTogglePermanent "f2") (Resolved (Some 0)) w1)))
  = [None; Some 0; Some 0].
Proof. split; reflexivity. Qed.

(** C2.  When the retention request for [X] succeeds with the server value
    [v], the list keeps its length; at every position a record with id [X]
    becomes the same record with [is_permanent] equal to [v], all its other
    fields kept, and a record with another id stays the very same record.
    The value written is [v] whatever value was requested.  When the request
    fails the component state is unchanged. *)
Theorem C2_toggle_permanent_patches_only_X (X : string) (v : option Z)
  (w : World) :
  let w' := handleTogglePermanent_resume X (Resolved v) w in
  List.length (files (state w')) = List.length (files (state w)) /\
  (forall i f, nth_error (files (state w)) i = Some f -> id f = X ->
     nth_error (files (state w')) i = Some (with_is_permanent f v)) /\
  (forall i f, nth_error (files (state w)) i = Some f -> id f <> X ->
     nth_error (files (state w')) i = Some f) /\
  (forall f', In f' (files (state w')) -> id f' = X -> is_permanent f' = v) /\
  (forall requested,
     state (handleTogglePermanent X requested w) = state w) /\
  (forall err,
     state (handleTogglePermanent_resume X (Rejected err) w) = state w).
Proof.
  intros w'. subst w'. rewrite togglePermanent_files.
  split; [apply length_map|].
  split; [|split; [|split; [|split]]].
  - intros i f Hi Hid. rewrite nth_error_map, Hi. simpl.
    apply String.eqb_eq in Hid. now rewrite Hid.
  - intros i f Hi Hid. rewrite nth_error_map, Hi. simpl.
    apply String.eqb_neq in Hid. now rewrite Hid.
  - intros f' Hin Hid. apply in_map_iff in Hin as [f [Hf _]].
    destruct (id f =? X) eqn:E; subst f'; [reflexivity|].
    apply String.eqb_neq in E. contradiction.
  - reflexivity.
  - intros err. destruct w as [s l p u t]; destruct s; reflexivity.
Qed.

(** ** Deletion *)

Lemma handleDelete_resume_files (X : string) (w : World) :
  files (state (handleDelete_resume X (Resolved tt) w)) =
  filter (fun f => negb (id f =? X)) (files (state w)).
Proof. reflexivity. Qed.

(** Removal is by identity: with a single record of id [X] in the list, the
    result is the list without that one element, wherever it stands. *)
Lemma filter_out_unique (X : string) (pre post : list MediaFile)
  (r : MediaFile) :
  id r = X ->
  (forall f, In f (pre ++ post)%list -> id f <> X) ->
  filter (fun f => negb (id f =? X)) (pre ++ r :: post)%list
  = (pre ++ post)%list.
Proof.
  intros Hr Hothers.
  assert (Hkeep : forall l, (forall f, In f l -> id f <> X) ->
                   filter (fun f => negb (id f =? X)) l = l).
  { induction l as [|f l IH]; intros H; simpl; [reflexivity|].
    assert (E : (id f =? X) = false)
      by (apply String.eqb_neq, H; now left).
    rewrite E. simpl. f_equal. apply IH. intros g Hg. apply H. now right. }
  rewrite filter_app. simpl. apply String.eqb_eq in Hr. rewrite Hr. simpl.
  rewrite !Hkeep; [reflexivity| |];
    intros f Hf; apply Hothers, in_or_app; tauto.
Qed.

Example delete_middle_record :
  let w1 := handleDelete "f2" true Sample.world in
  files (state w1) = Sample.inventory /\
  files (state (resume (TDelete "f2") (Resolved tt) w1))
  = [Sample.photo; Sample.archive] /\
  files (state (resume (TDelete "f2") (Rejected "HTTP 500") w1))
  = Sample.inventory.
Proof. repeat split; reflexivity. Qed.

(** C3.  When the delete request for [X] succeeds, no record of the list has
    id [X], the records with another id are exactly those there were, and
    if [X] named one record the list is the old one without that element.
    Until the request settles, and when it fails, the list is the one there
    was before the attempt; declining the confirmation issues no request. *)
Theorem C3_delete_removes_only_X (X : string) (w : World) :
  let w' := handleDelete_resume X (Resolved tt) w in
  (forall f, In f (files (state w')) -> id f <> X) /\
  (forall f, id f <> X ->
     (In f (files (state w')) <-> In f (files (state w)))) /\
  (forall pre r post,
     files (state w) = (pre ++ r :: post)%list -> id r = X ->
     (forall f, In f (pre ++ post)%list -> id f <> X) ->
     files (state w') = (pre ++ post)%list) /\
  (forall confirmed, state (handleDelete X confirmed w) = state w) /\
  (forall err, state (handleDelete_resume X (Rejected err) w) = state w) /\
  since (log w) (log (handleDelete X false w)) = [Confirm "Delete this file?"].
Proof.
  intros w'. subst w'. rewrite handleDelete_resume_files.
  split; [|split; [|split; [|split; [|split]]]].
  - intros f Hin. apply filter_In in Hin as [_ H].
    apply negb_true_iff, String.eqb_neq in H. exact H.
  - intros f Hid. rewrite filter_In. apply String.eqb_neq in Hid.
    rewrite Hid. simpl. tauto.
  - intros pre r post Hfiles Hr Hothers. rewrite Hfiles.
    now apply filter_out_unique.
  - intros [|]; reflexivity.
  - intros err. destruct w as [s l p u t]; destruct s; reflexivity.
  - unfold since. simpl. rewrite skipn_app, skipn_all, Nat.sub_diag. reflexivity.
Qed.

(** ** Upload *)

Lemma since_app (l x : list Effect) : since l (l ++ x)%list = x.
Proof.
  unfold since. rewrite skipn_app, skipn_all, Nat.sub_diag. reflexivity.
Qed.

Lemma since_app_app (l a b : list Effect) :
  since (l ++ a)%list (l ++ b)%list = since a b.
Proof.
  unfold since. rewrite length_app, skipn_app, skipn_all2 by lia.
  replace (List.length l + List.length a - List.length l)%nat
    with (List.length a) by lia.
  reflexivity.
Qed.

(** Compute [since l l'] when both logs extend a common log. *)
Ltac since_log :=
  cbn [log seq emit suspend await modify skip];
  repeat rewrite <- app_assoc;
  rewrite ?since_app_app, ?since_app;
  cbn [since skipn List.length app filter isRequest isUploadTransfer].

Lemma formDataOf_parts (fileList : list File) :
  exists parts,
    formDataOf fileList = FormData parts /\
    List.length parts = List.length fileList /\
    Forall (fun part => fst part = "files") parts /\
    map snd parts = fileList.
Proof.
  exists (map (fun file => ("files", file)) fileList).
  split; [reflexivity|]. split; [apply length_map|]. split.
  - apply Forall_forall. intros part Hin.
    apply in_map_iff in Hin as [file [<- _]]. reflexivity.
  - rewrite map_map. simpl. apply map_id.
Qed.

Lemma fileParts_formDataOf (fileList : list File) :
  fileParts (Some (formDataOf fileList)) = fileList.
Proof.
  unfold fileParts, formDataOf.
  induction fileList as [|file rest IH]; simpl; [reflexivity|].
  now rewrite IH.
Qed.

Lemma picker_upload_contract (fileList : list File) (w : World) :
  (1 <= List.length fileList)%nat ->
  UploadContract
    (handleFileUpload (ChangeEvent (Some fileList)))
    (TFileUpload (List.length fileList) (selectedCategory (state w)))
    (handleFileUpload_resume (List.length fileList)
                             (selectedCategory (state w)))
    fileList w.
Proof.
  intros HN. destruct fileList as [|file rest]; [simpl in HN; lia|].
  clear HN. set (fileList := file :: rest).
  destruct (formDataOf_parts fileList) as [parts [Hbody Hparts]].
  unfold UploadContract.
  change (handleFileUpload (ChangeEvent (Some fileList)) w)
    with ((setIsUploading true ;;
           await (TFileUpload (List.length fileList) (selectedCategory (state w)))
                 (uploadRequest (token w) fileList)) w).
  split; [|split; [|split; [|split]]]; try reflexivity.
  - exists {| method := POST;
             headers := [("Authorization", bearer (token w))];
             body := Some (FormData parts) |}, parts.
    split; [|split; [|split]]; try reflexivity; [|exact Hparts].
    unfold uploadRequest, setIsUploading. rewrite Hbody. since_log. reflexivity.
  - intros [[|]|err]; cbv zeta; (split; [reflexivity|]); intros Hfail;
      try congruence; (split; [reflexivity|]); (split; [|reflexivity]);
      unfold handleFileUpload_resume, setIsUploading; since_log; reflexivity.
Qed.

Lemma drop_upload_contract (fileList : list File) (w : World) :
  (1 <= List.length fileList)%nat ->
  UploadContract (handleDrop fileList) TDrop handleDrop_resume fileList w.
Proof.
  intros HN. destruct fileList as [|file rest]; [simpl in HN; lia|].
  clear HN. set (fileList := file :: rest).
  destruct (formDataOf_parts fileList) as [parts [Hbody Hparts]].
  unfold UploadContract.
  change (handleDrop fileList w)
    with ((emit PreventDefault ;; emit StopPropagation ;;
           setDragActive false ;; setIsUploading true ;;
           await TDrop (uploadRequest (token w) fileList)) w).
  split; [|split; [|split; [|split]]]; try reflexivity.
  - exists {| method := POST;
             headers := [("Authorization", bearer (token w))];
             body := Some (FormData parts) |}, parts.
    split; [|split; [|split]]; try reflexivity; [|exact Hparts].
    unfold uploadRequest, setIsUploading, setDragActive. rewrite Hbody.
    since_log. reflexivity.
  - intros [[|]|err]; cbv zeta; (split; [reflexivity|]); intros Hfail;
      try congruence; (split; [reflexivity|]); (split; [|reflexivity]);
      unfold handleDrop_resume, setIsUploading; since_log; reflexivity.
Qed.

(** C4.  A gesture with N >= 1 blobs, from the picker or by drop, issues
    one request: a POST to /api/files/upload whose multipart body has N
    parts, all named files, holding the blobs in order.  The uploading flag
    is true once the gesture is handled and false once the request has
    settled, whatever the outcome.  When the request fails the list of
    files is as before and no further request is issued or left in
    flight. *)
Theorem C4_one_transfer_per_gesture (fileList : list File) (w : World) :
  (1 <= List.length fileList)%nat ->
  UploadContract
    (handleFileUpload (ChangeEvent (Some fileList)))
    (TFileUpload (List.length fileList) (selectedCategory (state w)))
    (resume (TFileUpload (List.length fileList) (selectedCategory (state w))))
    fileList w /\
  UploadContract (handleDrop fileList) TDrop (resume TDrop) fileList w.
Proof.
  intros HN. split.
  - now apply picker_upload_contract.
  - now apply drop_upload_contract.
Qed.

Lemma C4_witness :
  (1 <= List.length [Sample.blob1; Sample.blob2])%nat /\
  UploadContract
    (handleFileUpload (ChangeEvent (Some [Sample.blob1; Sample.blob2])))
    (TFileUpload 2 "images")
    (resume (TFileUpload 2 "images"))
    [Sample.blob1; Sample.blob2] Sample.world /\
  UploadContract (handleDrop [Sample.blob1; Sample.blob2]) TDrop (resume TDrop)
    [Sample.blob1; Sample.blob2] Sample.world.
Proof.
  split; [simpl; lia|].
  apply (C4_one_transfer_per_gesture [Sample.blob1; Sample.blob2] Sample.world).
  simpl; lia.
Defined.

(** What the two paths share on success: the flag is cleared and two
    independent reloads are started, of the list and of the statistics. *)
Lemma upload_success_reloads (count : nat) (closureCategory : string)
  (w : World) :
  filter isRequest
    (since (log w)
       (log (handleFileUpload_resume count closureCategory (Resolved true) w)))
  = [ApiFetch (if closureCategory =? "all" then "/api/files"
               else "/api/files?category=" ++ closureCategory) None;
     ApiFetch "/api/files/stats" None] /\
  filter isRequest
    (since (log w) (log (handleDrop_resume (Resolved true) w)))
  = [ApiFetch "/api/files" None; ApiFetch "/api/files/stats" None].
Proof.
  split.
  - unfold handleFileUpload_resume, fetchFiles, fetchStats, setIsUploading,
      setIsLoading.
    since_log. reflexivity.
  - unfold handleDrop_resume, fetchFiles, fetchStats, setIsUploading,
      setIsLoading.
    since_log. reflexivity.
Qed.

(** The notification of the drop path is the same text for every batch. *)
Lemma handleDrop_resume_success_log (w : World) :
  since (log w) (log (handleDrop_resume (Resolved true) w))
  = [Toast Success "Files uploaded"; ApiFetch "/api/files" None;
     ApiFetch "/api/files/stats" None].
Proof.
  unfold handleDrop_resume, fetchFiles, fetchStats, setIsUploading,
    setIsLoading.
  since_log. reflexivity.
Qed.

(** C5.  One batch of two blobs, submitted once through the picker and once
    by drop while the category images is selected, the server accepting it:
    the picker path reports the count and reloads the selected category; the
    drop path reports no count and reloads the unfiltered list.  When the
    server refuses the batch the two paths report different failures. *)
Theorem C5_drop_path_differs_from_picker_path :
  let batch := [Sample.blob1; Sample.blob2] in
  let picked := handleFileUpload (ChangeEvent (Some batch)) Sample.world in
  let dropped := handleDrop batch Sample.world in
  pending picked = [TFileUpload 2 "images"] /\
  pending dropped = [TDrop] /\
  since (log picked)
        (log (resume (TFileUpload 2 "images") (Resolved true) picked))
  = [Toast Success "Uploaded 2 files successfully";
     ApiFetch "/api/files?category=images" None;
     ApiFetch "/api/files/stats" None] /\
  since (log dropped) (log (resume TDrop (Resolved true) dropped))
  = [Toast Success "Files uploaded";
     ApiFetch "/api/files" None;
     ApiFetch "/api/files/stats" None] /\
  since (log picked)
        (log (resume (TFileUpload 2 "images") (Resolved false) picked))
  = [Toast Error "Failed to upload files";
     ConsoleError "Error: Upload failed"] /\
  since (log dropped) (log (resume TDrop (Resolved false) dropped))
  = [Toast Error "Upload failed"].
Proof. vm_compute. repeat split. Qed.

(** ** Category selection *)

Lemma selectCategory_unfold (name : string) (w : World) :
  user w = true -> selectedCategory (state w) <> name ->
  selectCategory name w
  = (setSelectedCategory name ;; fetchFiles name ;; fetchStats ;; fetchPath) w.
Proof.
  intros Hu Hne. unfold selectCategory.
  apply String.eqb_neq in Hne. rewrite Hne.
  unfold seq at 1. unfold useEffect.
  change (user (setSelectedCategory name w)) with (user w). rewrite Hu.
  reflexivity.
Qed.

(** On mount, with a user, the unfiltered list is requested. *)
Lemma useEffect_on_mount (l : list Effect) (tk : option string) :
  let w := {| state := initialState; log := l; pending := [];
              user := true; token := tk |} in
  since l (log (useEffect w))
  = [ApiFetch "/api/files" None; ApiFetch "/api/files/stats" None;
     ApiFetch "/api/files/path" None].
Proof.
  cbv zeta. unfold useEffect, fetchFiles, fetchStats, fetchPath, setIsLoading.
  cbn [user state selectedCategory initialState String.eqb Ascii.eqb Bool.eqb].
  since_log. reflexivity.
Qed.

(** Without a user, or when the name is the one already selected, no
    request is issued. *)
Lemma selectCategory_without_user (name : string) (w : World) :
  user w = false -> log (selectCategory name w) = log w.
Proof.
  intros Hu. unfold selectCategory.
  destruct (selectedCategory (state w) =? name); [reflexivity|].
  unfold seq, useEffect.
  change (user (setSelectedCategory name w)) with (user w). now rewrite Hu.
Qed.

Lemma selectCategory_same (w : World) :
  selectCategory (selectedCategory (state w)) w = w.
Proof. unfold selectCategory. now rewrite String.eqb_refl. Qed.

(** C6.  With a user signed in, selecting a category other than the current
    one makes it the selected category and issues the list request: to
    /api/files when the name is all, to /api/files?category=name otherwise.
    When that request settles with the server's answer, the list held by
    the page is that answer; the page shows its records matching the search
    text, all of them when the search text is empty. *)
Theorem C6_select_category_fetches_server_partition (name : string)
  (data : list MediaFile) (net : Network) (w : World) :
  user w = true ->
  selectedCategory (state w) <> name ->
  net TFetchFiles = Resolved data ->
  let w1 := selectCategory name w in
  selectedCategory (state w1) = name /\
  (name = "all" ->
   since (log w) (log w1)
   = [ApiFetch "/api/files" None; ApiFetch "/api/files/stats" None;
      ApiFetch "/api/files/path" None]) /\
  (name <> "all" ->
   since (log w) (log w1)
   = [ApiFetch ("/api/files?category=" ++ name) None;
      ApiFetch "/api/files/stats" None; ApiFetch "/api/files/path" None]) /\
  pending w1 = (pending w ++ [TFetchFiles; TFetchStats; TFetchPath])%list /\
  exists w2,
    settle (List.length (pending w)) net w1 = Some w2 /\
    files (state w2) = data /\
    isLoading (state w2) = false /\
    displayed w2 = filteredFiles data (searchQuery (state w)) /\
    filteredFiles data "" = data.
Proof.
  intros Hu Hne Hnet w1. subst w1. rewrite (selectCategory_unfold _ _ Hu Hne).
  assert (Hpending :
    pending ((setSelectedCategory name ;; fetchFiles name ;;
              fetchStats ;; fetchPath) w)
    = (pending w ++ [TFetchFiles; TFetchStats; TFetchPath])%list).
  { unfold fetchFiles, fetchStats, fetchPath, setIsLoading, setSelectedCategory.
    cbn [pending seq emit suspend await modify].
    now repeat rewrite <- app_assoc. }
  split; [reflexivity|]. split; [|split; [|split; [exact Hpending|]]].
  - intros ->.
    unfold fetchFiles, fetchStats, fetchPath, setIsLoading, setSelectedCategory.
    since_log. reflexivity.
  - intros Hall. apply String.eqb_neq in Hall.
    unfold fetchFiles, fetchStats, fetchPath, setIsLoading, setSelectedCategory.
    rewrite Hall. since_log. reflexivity.
  - unfold settle. rewrite Hpending.
    rewrite nth_error_app2, Nat.sub_diag by lia. cbn [nth_error].
    eexists. split; [reflexivity|].
    cbn [resume]. rewrite Hnet.
    split; [reflexivity|]. split; [reflexivity|].
    split; [reflexivity | apply filteredFiles_empty_query].
Qed.

Lemma C6_witness :
  user Sample.world = true /\
  selectedCategory (state Sample.world) <> "videos" /\
  Sample.network TFetchFiles = Resolved [Sample.photo] /\
  since (log Sample.world) (log (selectCategory "videos" Sample.world))
  = [ApiFetch "/api/files?category=videos" None;
     ApiFetch "/api/files/stats" None; ApiFetch "/api/files/path" None].
Proof.
  assert (Hne : selectedCategory (state Sample.world) <> "videos")
    by (simpl; discriminate).
  split; [reflexivity|]. split; [exact Hne|]. split; [reflexivity|].
  apply (C6_select_category_fetches_server_partition
           "videos" [Sample.photo] Sample.network Sample.world
           eq_refl Hne eq_refl).
  discriminate.
Defined.

(** ** Knowledge bank *)

(** C7.  Asking for knowledge processing of [X] notifies the user and
    issues the request in the same step, before any answer; neither that
    step nor the handling of the answer, success or failure, changes the
    component state, so every record and its [processed] flag stay as they
    were. *)
Theorem C7_knowledge_request_leaves_records (X : string) (w : World) :
  let w1 := handleProcessKnowledge X w in
  since (log w) (log w1)
  = [Toast Loading "Processing file for Knowledge Bank...";
     ApiFetch ("/api/files/" ++ X ++ "/process-knowledge")
              (Some {| method := POST; headers := []; body := None |})] /\
  pending w1 = (pending w ++ [TProcessKnowledge X])%list /\
  files (state w1) = files (state w) /\
  forall o : Outcome unit,
    let w2 := resume (TProcessKnowledge X) o w1 in
    files (state w2) = files (state w) /\
    map processed (files (state w2)) = map processed (files (state w)) /\
    state w2 = state w.
Proof.
  cbv zeta. split; [|split; [reflexivity|split; [reflexivity|]]].
  - unfold handleProcessKnowledge. since_log. reflexivity.
  - intros [[]|err]; repeat split; reflexivity.
Qed.

(** ** The drag branch of the picker handler *)

(** C10.  Called with a DOM event, [handleFileUpload] returns at once: the
    world (state, log, requests in flight) is what it was.  A drop with at
    least one file is uploaded by [handleDrop] itself, which issues the
    transfer and raises the uploading flag. *)
Theorem C10_native_event_uploads_nothing (w : World) :
  handleFileUpload NativeEvent w = w /\
  forall file rest,
    let w1 := handleDrop (file :: rest) w in
    filter isUploadTransfer (since (log w) (log w1))
    = [uploadRequest (token w) (file :: rest)] /\
    isUploading (state w1) = true /\
    pending w1 = (pending w ++ [TDrop])%list.
Proof.
  split; [reflexivity|]. intros file rest. cbv zeta.
  split; [|split; reflexivity].
  unfold handleDrop, setDragActive, setIsUploading, uploadRequest.
  since_log. reflexivity.
Qed.

(** ** Size rendering *)

(** [floor_log k] is the integer logarithm in base 1024. *)
Lemma floor_log_spec (bytes : Z) :
  1 <= bytes ->
  k ^ floor_log k bytes <= bytes < k ^ (floor_log k bytes + 1).
Proof.
  intros Hpos. unfold floor_log, k.
  change (Z.log2 1024) with 10. change 1024 with (2 ^ 10).
  pose proof (Z.log2_nonneg bytes) as HL.
  destruct (Z.log2_spec bytes ltac:(lia)) as [Hlo Hhi].
  set (L := Z.log2 bytes) in *.
  assert (Hi : 0 <= L / 10) by (apply Z.div_pos; lia).
  pose proof (Z.mul_div_le L 10 ltac:(lia)) as Hle.
  pose proof (Z.mod_pos_bound L 10 ltac:(lia)) as Hmod.
  pose proof (Z.div_mod L 10 ltac:(lia)) as Hdm.
  rewrite <- !Z.pow_mul_r by lia. split.
  - apply Z.le_trans with (2 ^ L); [|exact Hlo].
    apply Z.pow_le_mono_r; lia.
  - apply Z.lt_le_trans with (2 ^ Z.succ L); [exact Hhi|].
    apply Z.pow_le_mono_r; lia.
Qed.

Lemma floor_log_large (bytes : Z) :
  k ^ 4 <= bytes -> 4 <= floor_log k bytes.
Proof.
  intros H. unfold floor_log, k in *. change (Z.log2 1024) with 10.
  assert (H40 : 40 <= Z.log2 bytes).
  { change 40 with (Z.log2 (1024 ^ 4)). now apply Z.log2_le_mono. }
  change 4 with (40 / 10). apply Z.div_le_mono; lia.
Qed.

Example formatFileSize_fraction : formatFileSize 1536 = "1.5 KB".
Proof. vm_compute; reflexivity. Qed.

Example formatFileSize_rounds_up : formatFileSize 1048575 = "1024 KB".
Proof. vm_compute; reflexivity. Qed.

Example formatFileSize_last_unit : formatFileSize (2 ^ 40 - 1) = "1024 GB".
Proof. vm_compute; reflexivity. Qed.

(** C8.  A total of 3145728 bytes is rendered as 3 MB, and 0 bytes as
    0 Bytes; so is the usage card for the statistics of the scenario. *)
Theorem C8_format_three_megabytes_and_zero :
  formatFileSize 3145728 = "3 MB" /\
  formatFileSize 0 = "0 Bytes" /\
  storageUsage (Some Sample.usage) = "3 MB".
Proof. repeat split; vm_compute; reflexivity. Qed.

(** C9.  From 1024^4 bytes on, the unit index is at least 4, the length of
    [sizes]; the lookup finds no unit and the rendered text ends with
    undefined. *)
Theorem C9_unit_index_out_of_bounds (bytes : Z) :
  k ^ 4 <= bytes ->
  let i := floor_log k bytes in
  Z.of_nat (List.length sizes) <= i /\
  nth_error sizes (Z.to_nat i) = None /\
  endsWith (formatFileSize bytes) "undefined".
Proof.
  intros H i. pose proof (floor_log_large bytes H) as Hi. fold i in Hi.
  assert (Hnone : nth_error sizes (Z.to_nat i) = None).
  { apply nth_error_None. simpl. lia. }
  split; [simpl; lia|]. split; [exact Hnone|].
  unfold formatFileSize. unfold k in H.
  assert (Hpos : 0 < bytes) by (change (1024 ^ 4) with 1099511627776 in H; lia).
  destruct (Z.eqb_spec bytes 0) as [E|_]; [lia|].
  destruct (Z.ltb_spec bytes 0) as [E|_]; [lia|].
  cbv zeta. fold i. unfold unit_name. rewrite Hnone.
  exists (number_to_string (toFixed2 bytes (k ^ i)) ++ " ").
  now rewrite string_app_assoc.
Qed.

Lemma C9_witness :
  k ^ 4 <= 2 ^ 40 /\
  formatFileSize (2 ^ 40) = "1 undefined" /\
  endsWith (formatFileSize (2 ^ 40)) "undefined".
Proof.
  split; [vm_compute; discriminate|]. split; [vm_compute; reflexivity|].
  apply (C9_unit_index_out_of_bounds (2 ^ 40)). vm_compute; discriminate.
Defined.

(** * Further properties of the two pages *)

(** ** Size rendering, all byte counts *)

Lemma floor_log_nonneg (bytes : Z) : 0 <= floor_log k bytes.
Proof.
  unfold floor_log, k. change (Z.log2 1024) with 10.
  apply Z.div_pos; [apply Z.log2_nonneg | lia].
Qed.

Lemma floor_log_lt (bytes j : Z) :
  1 <= bytes -> bytes < k ^ j -> floor_log k bytes < j.
Proof.
  intros Hb Hlt. destruct (floor_log_spec bytes Hb) as [Hlo _].
  pose proof (floor_log_nonneg bytes) as Hi.
  destruct (Z_lt_le_dec (floor_log k bytes) j) as [|Hge]; [assumption|].
  assert (0 <= j).
  { destruct (Z_lt_le_dec j 0) as [Hneg|]; [|assumption].
    rewrite Z.pow_neg_r in Hlt by assumption. lia. }
  assert (k ^ j <= k ^ floor_log k bytes)
    by (apply Z.pow_le_mono_r; [unfold k; lia | assumption]).
  lia.
Qed.

Lemma floor_log_ge (bytes j : Z) :
  0 <= j -> k ^ j <= bytes -> j <= floor_log k bytes.
Proof.
  intros Hj Hle.
  assert (Hb : 1 <= bytes).
  { assert (0 < k ^ j) by (apply Z.pow_pos_nonneg; unfold k; lia). lia. }
  destruct (floor_log_spec bytes Hb) as [_ Hhi].
  destruct (Z_lt_le_dec (floor_log k bytes) j) as [Hlt|]; [|assumption].
  assert (k ^ (floor_log k bytes + 1) <= k ^ j)
    by (apply Z.pow_le_mono_r; [unfold k; lia | lia]).
  lia.
Qed.

Lemma formatFileSize_positive (bytes : Z) :
  1 <= bytes ->
  formatFileSize bytes
  = number_to_string (toFixed2 bytes (k ^ floor_log k bytes))
    ++ " " ++ unit_name (floor_log k bytes).
Proof.
  intros Hb. unfold formatFileSize.
  destruct (Z.eqb_spec bytes 0); [lia|].
  destruct (Z.ltb_spec bytes 0); [lia|reflexivity].
Qed.

(** Below 1024^4 bytes the unit is one of the four of [sizes]: the text is
    a number, a space and that unit. *)
Theorem formatFileSize_unit_defined (bytes : Z) :
  1 <= bytes -> bytes < k ^ 4 ->
  exists u,
    In u sizes /\
    nth_error sizes (Z.to_nat (floor_log k bytes)) = Some u /\
    formatFileSize bytes
    = number_to_string (toFixed2 bytes (k ^ floor_log k bytes)) ++ " " ++ u.
Proof.
  intros Hb Hlt. rewrite (formatFileSize_positive bytes Hb).
  pose proof (floor_log_nonneg bytes) as H0.
  pose proof (floor_log_lt bytes 4 Hb Hlt) as H4.
  unfold unit_name.
  destruct (nth_error sizes (Z.to_nat (floor_log k bytes))) as [u|] eqn:E.
  - exists u. split; [now apply nth_error_In in E|]. now split.
  - apply nth_error_None in E. simpl in E. lia.
Qed.

Lemma formatFileSize_unit_defined_witness :
  exists u, In u sizes /\ formatFileSize 1300000 = "1.24 " ++ u.
Proof.
  destruct (formatFileSize_unit_defined 1300000) as [u [Hin [_ Heq]]];
    [lia | vm_compute; reflexivity |].
  exists u. split; [exact Hin | exact Heq].
Defined.

(** The number shown lies between 1 and 1024, both reachable: counted in
    hundredths it is at least 100 and at most 102400. *)
Theorem formatFileSize_mantissa_bounds (bytes : Z) :
  1 <= bytes ->
  100 <= toFixed2 bytes (k ^ floor_log k bytes) <= 102400.
Proof.
  intros Hb. destruct (floor_log_spec bytes Hb) as [Hlo Hhi].
  pose proof (floor_log_nonneg bytes) as Hi.
  rewrite Z.pow_add_r, Z.pow_1_r in Hhi by lia.
  set (d := k ^ floor_log k bytes) in *.
  assert (Hd : 0 < d)
    by (apply Z.pow_pos_nonneg; [unfold k; lia | assumption]).
  unfold k in Hhi. unfold toFixed2. split.
  - apply Z.div_le_lower_bound; lia.
  - apply Z.lt_succ_r. apply Z.div_lt_upper_bound; lia.
Qed.

Lemma formatFileSize_mantissa_bounds_witness :
  100 <= toFixed2 1048575 (k ^ floor_log k 1048575) <= 102400 /\
  formatFileSize 1048575 = "1024 KB".
Proof.
  split; [apply (formatFileSize_mantissa_bounds 1048575); lia|].
  vm_compute; reflexivity.
Defined.

Lemma floor_log_multiple (n j : Z) :
  1 <= n < k -> 0 <= j -> floor_log k (n * k ^ j) = j.
Proof.
  intros [Hn1 Hn2] Hj. unfold floor_log, k in *.
  change (Z.log2 1024) with 10. change 1024 with (2 ^ 10) at 1.
  rewrite <- Z.pow_mul_r by lia.
  rewrite Z.log2_mul_pow2 by lia.
  assert (HL : 0 <= Z.log2 n < 10).
  { split; [apply Z.log2_nonneg|]. apply Z.log2_lt_pow2; lia. }
  symmetry. apply (Z.div_unique _ 10 j (Z.log2 n)); lia.
Qed.

Lemma toFixed2_multiple (n d : Z) :
  0 < d -> toFixed2 (n * d) d = 100 * n.
Proof.
  intros Hd. unfold toFixed2.
  replace (200 * (n * d) + d) with ((200 * n + 1) * d) by ring.
  rewrite Z.div_mul_cancel_r by lia.
  symmetry. apply (Z.div_unique _ 2 (100 * n) 1); lia.
Qed.

Lemma number_to_string_whole (n : Z) :
  number_to_string (100 * n) = decimal n.
Proof.
  unfold number_to_string. cbv zeta.
  replace (100 * n) with (n * 100) by ring.
  rewrite Z.mod_mul, Z.div_mul by lia. reflexivity.
Qed.

(** A whole number [n] of units, below 1024, is shown as that number
    without a fraction, followed by the unit: n bytes as [n Bytes],
    n * 1024 as [n KB], and so on. *)
Theorem formatFileSize_whole_units (n j : Z) :
  1 <= n < k -> 0 <= j ->
  formatFileSize (n * k ^ j) = decimal n ++ " " ++ unit_name j.
Proof.
  intros Hn Hj.
  assert (Hd : 0 < k ^ j) by (apply Z.pow_pos_nonneg; unfold k; lia).
  rewrite formatFileSize_positive by nia.
  rewrite (floor_log_multiple n j Hn Hj).
  now rewrite (toFixed2_multiple n _ Hd), number_to_string_whole.
Qed.

Lemma formatFileSize_whole_units_witness :
  1 <= 512 < k /\ 0 <= 2 /\ formatFileSize (512 * k ^ 2) = "512 MB".
Proof.
  split; [unfold k; lia|]. split; [lia|].
  apply (formatFileSize_whole_units 512 2); unfold k; lia.
Defined.

(** ** The size helper of the downloads page *)

Lemma formatSize_positive (bytes : Z) :
  1 <= bytes ->
  Downloads.formatSize bytes
  = number_to_string (toFixed2 bytes (k ^ floor_log k bytes))
    ++ " " ++ Downloads.unit_name (floor_log k bytes).
Proof.
  intros Hb. unfold Downloads.formatSize.
  destruct (Z.eqb_spec bytes 0); [lia|].
  destruct (Z.ltb_spec bytes 0); [lia|reflexivity].
Qed.

(** From one kilobyte up to, not including, 1024^4 bytes the two pages
    render a size with the same text. *)
Theorem formatSize_agrees_with_formatFileSize (bytes : Z) :
  k <= bytes -> bytes < k ^ 4 ->
  Downloads.formatSize bytes = formatFileSize bytes.
Proof.
  intros Hlo Hhi. assert (Hb : 1 <= bytes) by (unfold k in Hlo; lia).
  rewrite (formatSize_positive bytes Hb), (formatFileSize_positive bytes Hb).
  pose proof (floor_log_lt bytes 4 Hb Hhi) as H4.
  assert (H1 : 1 <= floor_log k bytes)
    by (apply floor_log_ge; [lia | now rewrite Z.pow_1_r]).
  set (i := floor_log k bytes) in *.
  assert (Hcases : i = 1 \/ i = 2 \/ i = 3) by lia.
  destruct Hcases as [-> | [-> | ->]]; reflexivity.
Qed.

Lemma formatSize_agrees_with_formatFileSize_witness :
  k <= 1536 /\ 1536 < k ^ 4 /\
  Downloads.formatSize 1536 = formatFileSize 1536.
Proof.
  split; [unfold k; lia|]. split; [vm_compute; reflexivity|].
  apply (formatSize_agrees_with_formatFileSize 1536);
    [unfold k; lia | vm_compute; reflexivity].
Defined.



(** ** Search, continued *)






Lemma filter_filter_swap {A : Type} (p q : A -> bool) (l : list A) :
  filter p (filter q l) = filter q (filter p l).
Proof.
  induction l as [|x l IH]; simpl; [reflexivity|].
  destruct (p x) eqn:Ep, (q x) eqn:Eq; simpl; rewrite ?Ep, ?Eq, IH;
    reflexivity.
Qed.

Lemma filter_map_invariant {A : Type} (p : A -> bool) (g : A -> A)
  (l : list A) :
  (forall x, p (g x) = p x) ->
  filter p (map g l) = map g (filter p l).
Proof.
  intros Hp. induction l as [|x l IH]; simpl; [reflexivity|].
  rewrite Hp. destruct (p x); simpl; now rewrite IH.
Qed.

Lemma matches_with_is_permanent (q : string) (f : MediaFile) (v : option Z) :
  matches q (with_is_permanent f v) = matches q f.
Proof. reflexivity. Qed.

(** The targeted updates act on the shown list as on the whole list: after
    a successful deletion the shown records are the ones shown before
    without those of id [X]; after a successful retention update they are
    the same records, in the same places, those of id [X] carrying the
    server's value.  No record enters or leaves the search result
    otherwise. *)
Theorem targeted_updates_commute_with_search (X : string) (v : option Z)
  (w : World) :
  displayed (resume (TDelete X) (Resolved tt) w)
  = filter (fun f => negb (id f =? X)) (displayed w) /\
  displayed (resume (TTogglePermanent X) (Resolved v) w)
  = map (fun f => if id f =? X then with_is_permanent f v else f)
        (displayed w).
Proof.
  unfold displayed, filteredFiles. split.
  - cbn [resume]. rewrite handleDelete_resume_files.
    change (searchQuery (state (handleDelete_resume X (Resolved tt) w)))
      with (searchQuery (state w)).
    apply filter_filter_swap.
  - cbn [resume]. rewrite togglePermanent_files.
    change (searchQuery
              (state (handleTogglePermanent_resume X (Resolved v) w)))
      with (searchQuery (state w)).
    apply filter_map_invariant. intros f.
    destruct (id f =? X); [apply matches_with_is_permanent | reflexivity].
Qed.

(** ** Loads that fail *)

(** A load that fails is reported on the console only.  The statistics and
    the storage path keep their value, and so does the list of files, the
    loading indicator being switched off; the indicator is switched off
    after a successful load as well. *)
Theorem failed_loads_keep_state (err : string) (w : World) :
  state (resume TFetchStats (Rejected err) w) = state w /\
  state (resume TFetchPath (Rejected err) w) = state w /\
  files (state (resume TFetchFiles (Rejected err) w)) = files (state w) /\
  (forall o, isLoading (state (resume TFetchFiles o w)) = false) /\
  since (log w) (log (resume TFetchStats (Rejected err) w))
  = [ConsoleError ("Failed to fetch stats: " ++ err)] /\
  since (log w) (log (resume TFetchPath (Rejected err) w))
  = [ConsoleError ("Failed to fetch storage path: " ++ err)] /\
  since (log w) (log (resume TFetchFiles (Rejected err) w))
  = [ConsoleError ("Failed to fetch files: " ++ err)].
Proof.
  split; [reflexivity|]. split; [reflexivity|]. split; [reflexivity|].
  split; [|split; [|split]].
  - intros [data|e]; reflexivity.
  - cbn [resume]. unfold fetchStats_resume. since_log. reflexivity.
  - cbn [resume]. unfold fetchPath_resume. since_log. reflexivity.
  - cbn [resume]. unfold fetchFiles_resume, setIsLoading. since_log.
    reflexivity.
Qed.

(** ** Drag and drop, continued *)

Lemma handleDrag_frame (type : string) (w : World) :
  let w' := handleDrag type w in
  log w' = (log w ++ [PreventDefault; StopPropagation])%list /\
  pending w' = pending w /\
  files (state w') = files (state w) /\
  isUploading (state w') = isUploading (state w) /\
  selectedCategory (state w') = selectedCategory (state w) /\
  searchQuery (state w') = searchQuery (state w).
Proof.
  cbv zeta. unfold handleDrag.
  destruct ((type =? "dragenter") || (type =? "dragover"));
    [|destruct (type =? "dragleave")];
    cbn [seq emit modify skip setDragActive log pending state files
         isUploading selectedCategory searchQuery];
    rewrite <- app_assoc; repeat split; reflexivity.
Qed.

Lemma dragAll_frame (types : list string) (w : World) :
  let w' := dragAll types w in
  (exists l, log w' = (log w ++ l)%list /\ filter isRequest l = []) /\
  pending w' = pending w /\
  files (state w') = files (state w) /\
  isUploading (state w') = isUploading (state w) /\
  selectedCategory (state w') = selectedCategory (state w) /\
  searchQuery (state w') = searchQuery (state w).
Proof.
  cbv zeta. unfold dragAll. revert w.
  induction types as [|type types IH]; intros w; simpl.
  - split; [exists []; now rewrite app_nil_r | repeat split].
  - destruct (IH (handleDrag type w)) as [[l [Hl Hreq]] [Hp [Hf [Hu [Hc Hq]]]]].
    destruct (handleDrag_frame type w) as [Hl' [Hp' [Hf' [Hu' [Hc' Hq']]]]].
    split; [|repeat split; congruence].
    exists ([PreventDefault; StopPropagation] ++ l)%list. split.
    + rewrite Hl, Hl'. now rewrite <- app_assoc.
    + simpl. exact Hreq.
Qed.

Lemma dragAll_snoc (types : list string) (type : string) (w : World) :
  dragAll (types ++ [type]) w = handleDrag type (dragAll types w).
Proof. unfold dragAll. now rewrite fold_left_app. Qed.

(** Whatever drag events come over the drop zone, in whatever order, they
    issue no request and change neither the list of files, the uploading
    flag, the selected category nor the search text.  The highlight follows
    the last event: on after dragenter or dragover, off after dragleave;
    and the drop that ends the run switches it off, with or without
    files. *)
Theorem drag_events_only_move_highlight (types : list string) (w : World) :
  let w' := dragAll types w in
  filter isRequest (since (log w) (log w')) = [] /\
  pending w' = pending w /\
  files (state w') = files (state w) /\
  isUploading (state w') = isUploading (state w) /\
  selectedCategory (state w') = selectedCategory (state w) /\
  searchQuery (state w') = searchQuery (state w) /\
  dragActive (state (dragAll (types ++ ["dragenter"]) w)) = true /\
  dragActive (state (dragAll (types ++ ["dragover"]) w)) = true /\
  dragActive (state (dragAll (types ++ ["dragleave"]) w)) = false /\
  forall dataTransfer_files,
    dragActive (state (handleDrop dataTransfer_files w')) = false.
Proof.
  cbv zeta.
  destruct (dragAll_frame types w) as [[l [Hl Hreq]] [Hp [Hf [Hu [Hc Hq]]]]].
  split; [rewrite Hl, since_app; exact Hreq|].
  repeat (split; [assumption|]).
  rewrite !dragAll_snoc.
  split; [reflexivity|]. split; [reflexivity|]. split; [reflexivity|].
  intros [|file rest]; reflexivity.
Qed.

(** A gesture that brings no file uploads nothing: a change event without
    a file list or with an empty one leaves the world as it is, and a drop
    without files (dragged text, say) issues no request and leaves the
    uploading flag as it was. *)
Theorem empty_gestures_upload_nothing (w : World) :
  handleFileUpload (ChangeEvent None) w = w /\
  handleFileUpload (ChangeEvent (Some [])) w = w /\
  let w' := handleDrop [] w in
  since (log w) (log w') = [PreventDefault; StopPropagation] /\
  pending w' = pending w /\
  isUploading (state w') = isUploading (state w) /\
  files (state w') = files (state w).
Proof.
  split; [reflexivity|]. split; [reflexivity|]. cbv zeta.
  split; [|repeat split].
  unfold handleDrop, setDragActive. since_log. reflexivity.
Qed.

(** ** Requests in flight *)

Lemma settle_in_flight (net : Network) (w : World) (before after : list Task)
  (t : Task) :
  pending w = (before ++ t :: after)%list ->
  settle (List.length before) net w
  = Some (resume t (net t) (setPending (before ++ after)%list w)).
Proof.
  intros Hp. unfold settle. rewrite Hp.
  rewrite nth_error_app2, Nat.sub_diag by lia. cbn [nth_error].
  rewrite firstn_app, firstn_all, Nat.sub_diag. cbn [firstn].
  rewrite skipn_app, skipn_all2 by lia.
  replace (Datatypes.S (List.length before) - List.length before)%nat
    with 1%nat by lia.
  cbn [skipn app]. now rewrite app_nil_r.
Qed.

(** The uploading flag is shared and not counted.  With a batch sent from
    the picker and, before it settles, a second one dropped, the flag is
    switched off as soon as the first transfer settles, with whatever
    outcome, while the second transfer is still in flight. *)
Theorem uploading_flag_is_not_exclusive (first second : list File)
  (net : Network) (w : World) :
  (1 <= List.length first)%nat -> (1 <= List.length second)%nat ->
  let w2 := handleDrop second (handleFileUpload (ChangeEvent (Some first)) w) in
  isUploading (state w2) = true /\
  exists w3,
    settle (List.length (pending w)) net w2 = Some w3 /\
    isUploading (state w3) = false /\
    In TDrop (pending w3).
Proof.
  intros H1 H2.
  destruct first as [|f1 r1]; [simpl in H1; lia|].
  destruct second as [|f2 r2]; [simpl in H2; lia|].
  cbv zeta. split; [reflexivity|].
  set (t := TFileUpload (List.length (f1 :: r1)) (selectedCategory (state w))).
  set (w2 := handleDrop (f2 :: r2)
               (handleFileUpload (ChangeEvent (Some (f1 :: r1))) w)).
  assert (Hp : pending w2 = (pending w ++ t :: [TDrop])%list).
  { subst w2 t. cbn. now rewrite <- app_assoc. }
  rewrite (settle_in_flight net w2 (pending w) [TDrop] t Hp).
  eexists. split; [reflexivity|].
  subst t. cbn [resume].
  destruct (net (TFileUpload (List.length (f1 :: r1))
                             (selectedCategory (state w)))) as [[|]|err];
    (split; [reflexivity|]); cbn; rewrite <- ?app_assoc;
    apply in_or_app; right; simpl; tauto.
Qed.

Lemma uploading_flag_is_not_exclusive_witness :
  exists w3,
    settle 0 Sample.network
      (handleDrop [Sample.blob2]
         (handleFileUpload (ChangeEvent (Some [Sample.blob1])) Sample.world))
    = Some w3 /\
    isUploading (state w3) = false /\ In TDrop (pending w3).
Proof.
  destruct (uploading_flag_is_not_exclusive
              [Sample.blob1] [Sample.blob2] Sample.network Sample.world)
    as [_ H]; [simpl; lia | simpl; lia |].
  exact H.
Defined.

(** No update is optimistic.  No gesture of the page changes the list of
    files by itself, and of the requests that settle only the list load,
    the deletion and the retention update write it: uploads, statistics,
    storage path and knowledge processing never do. *)
Theorem list_changes_only_on_settlement (w : World) :
  (forall g : Gesture, files (state (perform g w)) = files (state w)) /\
  (forall (t : Task) (o : Outcome (reply t)),
     writesFiles t = false ->
     files (state (resume t o w)) = files (state w)).
Proof.
  split.
  - intros [type|fs|tf|name|text|f|f confirmed|f]; cbn [perform].
    + apply (handleDrag_frame type w).
    + destruct fs; reflexivity.
    + destruct tf as [[|file rest]|]; reflexivity.
    + unfold selectCategory.
      destruct (selectedCategory (state w) =? name); [reflexivity|].
      unfold seq, useEffect.
      change (user (setSelectedCategory name w)) with (user w).
      destruct (user w); reflexivity.
    + reflexivity.
    + reflexivity.
    + destruct confirmed; reflexivity.
    + reflexivity.
  - intros t o Hw. destruct t; try discriminate Hw; cbn in o.
    + destruct o; reflexivity.
    + destruct o; reflexivity.
    + destruct o as [[|]|]; reflexivity.
    + destruct o as [[|]|]; reflexivity.
    + destruct o; reflexivity.
Qed.

(** After a deletion that succeeds only the statistics are fetched again,
    not the list; after a retention update nothing is fetched; and after a
    failure of either nothing is sent at all: there is no retry and no
    request is left in flight. *)
Theorem targeted_updates_requests (X : string) (w : World) :
  filter isRequest
    (since (log w) (log (resume (TDelete X) (Resolved tt) w)))
  = [ApiFetch "/api/files/stats" None] /\
  pending (resume (TDelete X) (Resolved tt) w)
  = (pending w ++ [TFetchStats])%list /\
  (forall v,
     filter isRequest
       (since (log w) (log (resume (TTogglePermanent X) (Resolved v) w)))
     = [] /\
     pending (resume (TTogglePermanent X) (Resolved v) w) = pending w) /\
  (forall err,
     filter isRequest
       (since (log w) (log (resume (TDelete X) (Rejected err) w))) = [] /\
     filter isRequest
       (since (log w) (log (resume (TTogglePermanent X) (Rejected err) w)))
     = [] /\
     pending (resume (TDelete X) (Rejected err) w) = pending w /\
     pending (resume (TTogglePermanent X) (Rejected err) w) = pending w).
Proof.
  cbn [resume].
  split; [|split; [reflexivity|split]].
  - unfold handleDelete_resume, fetchStats, setFiles. since_log. reflexivity.
  - intros v. split; [|reflexivity].
    unfold handleTogglePermanent_resume, setFiles. since_log. reflexivity.
  - intros err. split; [|split; [|split; reflexivity]].
    + unfold handleDelete_resume. since_log. reflexivity.
    + unfold handleTogglePermanent_resume. since_log. reflexivity.
Qed.

(** ** Order of settlement *)

Lemma deleted_files (X : string) (w : World) :
  files (state (resume (TDelete X) (Resolved tt) w))
  = filter (fun f => negb (id f =? X)) (files (state w)).
Proof. reflexivity. Qed.

Lemma patched_files (X : string) (v : option Z) (w : World) :
  files (state (resume (TTogglePermanent X) (Resolved v) w))
  = map (fun f => if id f =? X then with_is_permanent f v else f)
        (files (state w)).
Proof. reflexivity. Qed.

(** The answers to requests about different records may arrive in either
    order: two retention updates for different ids give the same list both
    ways, and so do a deletion and a retention update, for any two ids.
    For one and the same id the later retention answer is the one kept. *)
Theorem targeted_updates_commute (X Y : string) (v u : option Z) (w : World) :
  (X <> Y ->
   files (state (resume (TTogglePermanent Y) (Resolved u)
                   (resume (TTogglePermanent X) (Resolved v) w)))
   = files (state (resume (TTogglePermanent X) (Resolved v)
                     (resume (TTogglePermanent Y) (Resolved u) w)))) /\
  files (state (resume (TTogglePermanent Y) (Resolved u)
                  (resume (TDelete X) (Resolved tt) w)))
  = files (state (resume (TDelete X) (Resolved tt)
                    (resume (TTogglePermanent Y) (Resolved u) w))) /\
  files (state (resume (TTogglePermanent X) (Resolved u)
                  (resume (TTogglePermanent X) (Resolved v) w)))
  = files (state (resume (TTogglePermanent X) (Resolved u) w)).
Proof.
  repeat (rewrite patched_files || rewrite deleted_files).
  split; [|split].
  - intros Hne. rewrite !map_map. apply map_ext. intros f.
    destruct (id f =? X) eqn:EX, (id f =? Y) eqn:EY; simpl;
      rewrite ?EX, ?EY; try reflexivity.
    apply String.eqb_eq in EX, EY. congruence.
  - symmetry. apply filter_map_invariant. intros f.
    now destruct (id f =? Y).
  - rewrite map_map. apply map_ext. intros f.
    destruct (id f =? X) eqn:EX; simpl; rewrite EX; reflexivity.
Qed.

(** ** The retention badge and button *)

(** The badge (shown when the value is exactly 1) implies the label
    Protected (shown when the value is truthy); the label is shown without
    the badge exactly when the value is a number other than 0 and 1. *)
Theorem retention_badge_and_label (f : MediaFile) :
  (permBadge f = true -> retentionLabel f = "Protected (Keep)") /\
  (retentionLabel f = "Protected (Keep)" /\ permBadge f = false <->
   exists n, is_permanent f = Some n /\ n <> 0 /\ n <> 1).
Proof.
  unfold permBadge, retentionLabel, truthy.
  destruct (is_permanent f) as [n|].
  - destruct (Z.eqb_spec n 1) as [->|H1]; simpl.
    + split; [reflexivity|]. split.
      * intros [_ H]; discriminate.
      * intros [m [Hm [_ Hm1]]]. injection Hm as <-. contradiction.
    + destruct (Z.eqb_spec n 0) as [->|H0]; simpl.
      * split; [discriminate|]. split.
        -- intros [H _]; discriminate.
        -- intros [m [Hm [Hm0 _]]]. injection Hm as <-. contradiction.
      * split; [discriminate|]. split.
        -- intros _. now exists n.
        -- intros _. split; reflexivity.
  - split; [discriminate|]. split.
    + intros [H _]; discriminate.
    + intros [m [Hm _]]; discriminate.
Qed.

(** A click on the retention button asks for the opposite of what the badge
    shows.  When the server stores what was asked (1 for true, 0 for
    false), every record of that id then shows the opposite badge and the
    matching label. *)
Theorem retention_click_flips_badge (f : MediaFile) (w : World) :
  let requested := negb (permBadge f) in
  let w1 := perform (ClickRetention f) w in
  let w2 := resume (TTogglePermanent (id f))
                   (Resolved (Some (if requested then 1 else 0))) w1 in
  since (log w) (log w1)
  = [ApiFetch ("/api/files/" ++ id f ++ "/permanent")
       (Some {| method := PUT; headers := [];
                body := Some (JsonIsPermanent requested) |})] /\
  pending w1 = (pending w ++ [TTogglePermanent (id f)])%list /\
  forall g, In g (files (state w2)) -> id g = id f ->
    permBadge g = requested /\
    retentionLabel g
    = if requested then "Protected (Keep)" else "Auto-delete in 7d".
Proof.
  cbv zeta. split; [|split; [reflexivity|]].
  - cbn [perform]. unfold onRetentionClick, handleTogglePermanent.
    since_log. reflexivity.
  - intros g Hin Hid. rewrite patched_files in Hin.
    apply in_map_iff in Hin as [f0 [Hg _]].
    destruct (id f0 =? id f) eqn:E.
    + subst g. unfold permBadge at 1, retentionLabel. simpl.
      destruct (permBadge f); simpl; split; reflexivity.
    + subst g. apply String.eqb_neq in E. contradiction.
Qed.

(** ** The type badge *)

Lemma splitOn_no_separator (s : string) :
  includes s "/" = false -> splitOn "/" s = [s].
Proof.
  induction s as [|c s IH]; [reflexivity|].
  change (includes (String c s) "/")
    with ((Ascii.eqb "/" c && true) || includes s "/").
  rewrite andb_true_r, orb_false_iff. intros [Hc Hs].
  simpl. rewrite Ascii.eqb_sym, Hc. now rewrite (IH Hs).
Qed.

Lemma splitOn_first_separator (t u : string) :
  includes t "/" = false ->
  splitOn "/" (t ++ "/" ++ u) = t :: splitOn "/" u.
Proof.
  induction t as [|c t IH]; [reflexivity|].
  change (includes (String c t) "/")
    with ((Ascii.eqb "/" c && true) || includes t "/").
  rewrite andb_true_r, orb_false_iff. intros [Hc Ht].
  remember ("/" ++ u) as rest eqn:Hrest.
  simpl. rewrite Ascii.eqb_sym, Hc. subst rest. now rewrite (IH Ht).
Qed.

(** For a type written [type/subtype] the badge is the subtype; when the
    subtype is empty, or when there is no slash at all, it is FILE. *)
Theorem mimeBadge_is_subtype (t u : string) :
  includes t "/" = false -> includes u "/" = false ->
  mimeBadge (t ++ "/" ++ u) = (if u =? "" then "FILE" else u) /\
  mimeBadge t = "FILE".
Proof.
  intros Ht Hu. unfold mimeBadge.
  rewrite (splitOn_first_separator t u Ht), (splitOn_no_separator u Hu),
    (splitOn_no_separator t Ht).
  split; [|reflexivity]. destruct u; reflexivity.
Qed.

Lemma mimeBadge_is_subtype_witness :
  includes "image" "/" = false /\ includes "svg+xml" "/" = false /\
  mimeBadge "image/svg+xml" = "svg+xml".
Proof.
  split; [reflexivity|]. split; [reflexivity|].
  apply (mimeBadge_is_subtype "image" "svg+xml"); reflexivity.
Defined.

(** ** The reload after an upload *)

Lemma selectCategory_keeps_in_flight (name : string) (t : Task) (w : World) :
  In t (pending w) -> In t (pending (selectCategory name w)).
Proof.
  intros Hin. unfold selectCategory.
  destruct (selectedCategory (state w) =? name); [exact Hin|].
  unfold seq, useEffect.
  change (user (setSelectedCategory name w)) with (user w).
  destruct (user w); [|exact Hin].
  cbn. rewrite <- !app_assoc. apply in_or_app. now left.
Qed.

Lemma selectCategory_selected (name : string) (w : World) :
  selectedCategory (state (selectCategory name w)) = name.
Proof.
  unfold selectCategory.
  destruct (String.eqb_spec (selectedCategory (state w)) name) as [E|_];
    [exact E|].
  unfold seq, useEffect.
  change (user (setSelectedCategory name w)) with (user w).
  destruct (user w); reflexivity.
Qed.

(** The reload that follows an upload from the picker asks for the category
    that was selected when the files were picked.  If the user moves to
    another tab while the transfer is in flight, the transfer stays in
    flight and, once it succeeds, the list of the former category is
    requested although the new one is selected. *)
Theorem picker_reload_uses_category_of_gesture (fileList : list File)
  (name : string) (w : World) :
  (1 <= List.length fileList)%nat ->
  let old := selectedCategory (state w) in
  let t := TFileUpload (List.length fileList) old in
  let w1 := perform (Pick (Some fileList)) w in
  let w2 := perform (SelectTab name) w1 in
  let w3 := resume t (Resolved true) w2 in
  In t (pending w2) /\
  selectedCategory (state w3) = name /\
  filter isRequest (since (log w2) (log w3))
  = [ApiFetch (if old =? "all" then "/api/files"
               else "/api/files?category=" ++ old) None;
     ApiFetch "/api/files/stats" None].
Proof.
  intros HN. destruct fileList as [|file rest]; [simpl in HN; lia|].
  cbv zeta. cbn [perform resume]. split; [|split].
  - apply selectCategory_keeps_in_flight. cbn.
    apply in_or_app. right. now left.
  - change (selectedCategory (state (handleFileUpload_resume _ _ _ ?x)))
      with (selectedCategory (state x)).
    apply selectCategory_selected.
  - apply upload_success_reloads.
Qed.

Lemma picker_reload_uses_category_of_gesture_witness :
  (1 <= List.length [Sample.blob1])%nat /\
  let w2 := perform (SelectTab "videos")
              (perform (Pick (Some [Sample.blob1])) Sample.world) in
  selectedCategory (state w2) = "videos" /\
  filter isRequest
    (since (log w2) (log (resume (TFileUpload 1 "images") (Resolved true) w2)))
  = [ApiFetch "/api/files?category=images" None;
     ApiFetch "/api/files/stats" None].
Proof.
  split; [simpl; lia|]. cbv zeta. split; [reflexivity|].
  apply (picker_reload_uses_category_of_gesture
           [Sample.blob1] "videos" Sample.world).
  simpl; lia.
Defined.

(** The reload that follows a drop never carries a category.  Once the
    dropped batch is accepted the unfiltered list /api/files is requested,
    and when that request settles the page holds the server's unfiltered
    answer while the selected category is what it was. *)
Theorem drop_reload_is_unfiltered (fileList : list File)
  (data : list MediaFile) (net : Network) (w : World) :
  (1 <= List.length fileList)%nat ->
  net TDrop = Resolved true ->
  net TFetchFiles = Resolved data ->
  let w1 := perform (Drop fileList) w in
  exists w2 w3,
    settle (List.length (pending w)) net w1 = Some w2 /\
    since (log w1) (log w2)
    = [Toast Success "Files uploaded"; ApiFetch "/api/files" None;
       ApiFetch "/api/files/stats" None] /\
    settle (List.length (pending w)) net w2 = Some w3 /\
    files (state w3) = data /\
    selectedCategory (state w3) = selectedCategory (state w) /\
    isUploading (state w3) = false /\
    isLoading (state w3) = false /\
    pending w3 = (pending w ++ [TFetchStats])%list.
Proof.
  intros HN Hdrop Hfiles.
  destruct fileList as [|file rest]; [simpl in HN; lia|].
  cbv zeta. cbn [perform].
  set (w1 := handleDrop (file :: rest) w).
  assert (Hp1 : pending w1 = (pending w ++ TDrop :: [])%list) by reflexivity.
  rewrite (settle_in_flight net w1 (pending w) [] TDrop Hp1).
  cbn [resume]. rewrite Hdrop.
  set (w2 := handleDrop_resume (Resolved true)
               (setPending (pending w ++ [])%list w1)).
  assert (Hp2 : pending w2 = (pending w ++ TFetchFiles :: [TFetchStats])%list).
  { subst w2. cbn. rewrite app_nil_r. now rewrite <- app_assoc. }
  exists w2. eexists. split; [reflexivity|]. split.
  - subst w2. apply (handleDrop_resume_success_log
                       (setPending (pending w ++ [])%list w1)).
  - rewrite (settle_in_flight net w2 (pending w) [TFetchStats] TFetchFiles Hp2).
    split; [reflexivity|]. cbn [resume]. rewrite Hfiles.
    repeat split; reflexivity.
Qed.

Lemma drop_reload_is_unfiltered_witness :
  exists w2 w3,
    settle 0 Sample.network (perform (Drop [Sample.blob1]) Sample.world)
    = Some w2 /\
    settle 0 Sample.network w2 = Some w3 /\
    files (state w3) = [Sample.photo] /\
    selectedCategory (state w3) = "images".
Proof.
  destruct (drop_reload_is_unfiltered
              [Sample.blob1] [Sample.photo] Sample.network Sample.world)
    as [w2 [w3 [H1 [_ [H2 [H3 [H4 _]]]]]]];
    [simpl; lia | reflexivity | reflexivity |].
  exists w2, w3. repeat split; assumption.
Defined.

(** ** The three loads of the effect *)

(** The list, the statistics and the storage path are loaded by three
    independent requests that write different parts of the state: whatever
    their outcomes, the state reached does not depend on the order in
    which they settle. *)
Theorem loads_settle_in_any_order (oFiles : Outcome (list MediaFile))
  (oStats : Outcome FileStats) (oPath : Outcome string) (w : World) :
  let f := resume TFetchFiles oFiles in
  let s := resume TFetchStats oStats in
  let p := resume TFetchPath oPath in
  state (s (f w)) = state (f (s w)) /\
  state (p (f w)) = state (f (p w)) /\
  state (p (s w)) = state (s (p w)) /\
  state (p (s (f w))) = state (f (s (p w))).
Proof.
  cbv zeta. destruct oFiles, oStats, oPath; repeat split; reflexivity.
Qed.
